(** * Verification of the signal pipeline of financial-signal-forge

    Shallow embedding of the TypeScript front end (src/src/pages/Index.tsx,
    the API service of src/unnamed/part_001, src/src/hooks/useSignals.ts)
    and of the parts of the Python engine the front end relies on.

    JavaScript numbers are modelled as exact rationals [Q]; the IEEE rounding
    of the arithmetic is not modelled, the explicit rounding the code asks for
    ([Math.round], [toFixed]) is.  The two position-size calculators, whose
    explicit rounding acts on the double the arithmetic produced, are also
    modelled in binary64 (modules [Binary64], [DashboardDouble],
    [IndexPageDouble]).  [Math.random] is a state effect over the
    stream of values it will return. *)

From Stdlib Require Import QArith Qround Qabs Lqa ZArith String List Bool Lia.
From Stdlib Require Floats.
(* Decimal literals of type [float] denote the nearest double, as in JavaScript. *)
Set Warnings "-inexact-float".
Import ListNotations.
Open Scope string_scope.
Open Scope Q_scope.

(** ** JavaScript helpers *)

(** [s.includes(sub)] *)
Definition includes (s sub : string) : bool :=
  match String.index 0 sub s with Some _ => true | None => false end.

(** The strict comparison [a < b] of two numbers. *)
Definition Qlt_bool (a b : Q) : bool := negb (Qle_bool b a).

(** [Math.floor] on a number, as an integer. *)
Definition js_floor (x : Q) : Z := Qfloor x.

(** [Math.round]: nearest integer, halves rounded towards +infinity. *)
Definition js_round (x : Q) : Q := inject_Z (Qfloor (x + (1#2))).

(** [parseFloat(x.toFixed(k))]: round [|x|] to [k] decimals, halves up,
    and put the sign back. *)
Definition to_fixed (k : nat) (x : Q) : Q :=
  let p := inject_Z (10 ^ Z.of_nat k) in
  let r := inject_Z (Qfloor (Qabs x * p + (1#2))) / p in
  if Qlt_bool x 0 then - r else r.

(** [xs[Math.floor(Math.random() * xs.length)]]; the default is never read
    when the draw lies in [0,1). *)
Definition pick {A} (d : A) (xs : list A) (r : Q) : A :=
  nth (Z.to_nat (js_floor (r * inject_Z (Z.of_nat (length xs))))) xs d.

(** ** [Math.random] as a state effect *)

Definition Rand (A : Type) := list Q -> A * list Q.

Definition rret {A} (a : A) : Rand A := fun g => (a, g).
Definition rbind {A B} (m : Rand A) (k : A -> Rand B) : Rand B :=
  fun g => let (a, g') := m g in k a g'.

Notation "x <- m ;; k" := (rbind m (fun x => k))
  (at level 61, m at next level, right associativity).

(** One call of [Math.random()]: the next value of the stream.  An exhausted
    stream answers 0, a value [Math.random] may return. *)
Definition random : Rand Q :=
  fun g => match g with r :: g' => (r, g') | [] => (0, []) end.

(** A stream of values [Math.random] can return. *)
Definition valid_draws (g : list Q) : Prop := Forall (fun r => 0 <= r < 1) g.

Inductive direction := BUY | SELL.

Definition direction_eqb (a b : direction) : bool :=
  match a, b with BUY, BUY | SELL, SELL => true | _, _ => false end.

(** ** The dashboard page ([TradingSignalDashboard] in Index.tsx) *)
Module Dashboard.

Record volatility_info := {
  atr_percentile : Q;
  sufficient_volatility : bool
}.

(** [interface Signal]; the id [signal_${Date.now()}_${Math.random()}] is
    kept as its two ingredients, the ISO timestamp as the clock reading. *)
Record Signal := {
  id_time : Z;
  id_rand : Q;
  pair : string;
  timeframe : string;
  sig_direction : direction;
  strength : Q;
  entry_price : Q;
  stop_loss : Q;
  take_profit_1 : Q;
  take_profit_2 : Q;
  take_profit_3 : Q;
  risk_reward_1 : Q;
  risk_reward_2 : Q;
  risk_reward_3 : Q;
  timestamp : Z;
  reasons : list string;
  mtf_confirmation : bool;
  mtf_confirmation_percentage : Q;
  session : string;
  sig_volatility_info : volatility_info
}.

Record PositionSizing := {
  account_balance : Q;
  risk_percent : Q;
  lot_size : Q;
  risk_amount : Q;
  max_loss : Q
}.

(** [generateDemoSignal], closed over the component state [selectedPairs],
    [selectedTimeframes] and the clock [now]. *)
Definition generateDemoSignal (selectedPairs selectedTimeframes : list string)
    (now : Z) : Rand Signal :=
  let pairs := match selectedPairs with [] => ["EUR_USD"; "GBP_USD"; "USD_JPY"] | _ => selectedPairs end in
  let timeframes := match selectedTimeframes with [] => ["H1"; "H4"; "D1"] | _ => selectedTimeframes end in
  let directions := [BUY; SELL] in
  r_pair <- random ;;
  let pair := pick "" pairs r_pair in
  r_tf <- random ;;
  let timeframe := pick "" timeframes r_tf in
  r_dir <- random ;;
  let dir := pick BUY directions r_dir in
  r_str <- random ;;
  let strength := 60 + r_str * 40 in
  r_base <- random ;;
  let basePrice := if includes pair "JPY" then 140 + r_base * 20 else 1.0 + r_base * 0.2 in
  let pipValue := if includes pair "JPY" then 0.01 else 0.0001 in
  r_spread <- random ;;
  let spread := 10 + r_spread * 20 in
  let entry_price := basePrice in
  let stop_loss := match dir with
                   | BUY => entry_price - (spread * pipValue)
                   | SELL => entry_price + (spread * pipValue) end in
  let risk := Qabs (entry_price - stop_loss) in
  let tp1 := match dir with BUY => entry_price + risk | SELL => entry_price - risk end in
  let tp2 := match dir with BUY => entry_price + (risk * 2) | SELL => entry_price - (risk * 2) end in
  let tp3 := match dir with BUY => entry_price + (risk * 3) | SELL => entry_price - (risk * 3) end in
  r_id <- random ;;
  r_mtf <- random ;;
  r_mtfp <- random ;;
  r_atr <- random ;;
  rret {|
    id_time := now;
    id_rand := r_id;
    pair := pair;
    timeframe := timeframe;
    sig_direction := dir;
    strength := strength;
    entry_price := entry_price;
    stop_loss := stop_loss;
    take_profit_1 := tp1;
    take_profit_2 := tp2;
    take_profit_3 := tp3;
    risk_reward_1 := 1.0;
    risk_reward_2 := 2.0;
    risk_reward_3 := 3.0;
    timestamp := now;
    reasons := ["RSI oversold recovery"; "MACD bullish crossover"; "Price above key support"];
    mtf_confirmation := Qlt_bool 0.3 r_mtf;
    mtf_confirmation_percentage := 60 + r_mtfp * 40;
    session := "london";
    sig_volatility_info := {| atr_percentile := 30 + r_atr * 50;
                              sufficient_volatility := true |}
  |}.

(** The signal [generateDemoSignal] builds from the draws [g]. *)
Definition demo (ps tfs : list string) (now : Z) (g : list Q) : Signal :=
  fst (generateDemoSignal ps tfs now g).

(** [calculatePositionSize] of the dashboard, closed over [accountBalance]
    and [riskPercent]; the result is what it stores with [setPositionSizing].
    (When [entry_price = stop_loss] JavaScript divides by zero and gets
    Infinity; [Q] division by zero gives 0.)  [Math.round] is applied to the
    exact lot here, the code applies it to the double lot: the two differ at
    lots a double puts on the other side of a half; [DashboardDouble] follows
    the double arithmetic. *)
Definition calculatePositionSize (accountBalance riskPercent : Q)
    (signal : option Signal) : option PositionSizing :=
  match signal with
  | None => None
  | Some signal =>
    let riskAmount := (accountBalance * riskPercent) / 100 in
    let pipDistance := Qabs (entry_price signal - stop_loss signal) in
    let pipValue := if includes (pair signal) "JPY" then 0.01 else 0.0001 in
    let pips := pipDistance / pipValue in
    let lotSize := riskAmount / (pips * 10) in
    let maxLoss := lotSize * pips * 10 in
    Some {| account_balance := accountBalance;
            risk_percent := riskPercent;
            lot_size := js_round (lotSize * 100) / 100;
            risk_amount := riskAmount;
            max_loss := maxLoss |}
  end.

End Dashboard.

(** ** The [Index] page (Index.tsx, second component) *)
Module IndexPage.

Record indicators := {
  rsi : Q; macd : Q; macd_signal : Q; macd_hist : Q;
  sma_fast : Q; sma_slow : Q; atr : Q
}.

(** [interface TradingSignal] of Index.tsx; [timestamp] is the clock reading
    its ISO string is made from. *)
Record TradingSignal := {
  id : string;
  pair : string;
  timeframe : string;
  sig_direction : direction;
  strength : Q;
  reasons : list string;
  entry_price : Q;
  stop_loss : Q;
  take_profit_1 : Q;
  take_profit_2 : Q;
  take_profit_3 : Q;
  risk_reward_1 : Q;
  risk_reward_2 : Q;
  risk_reward_3 : Q;
  timestamp : Z;
  current_price : Q;
  sig_indicators : indicators;
  status : string
}.

(** [interface PositionSize]; the optional fields are options. *)
Record PositionSize := {
  lot_size : option Q;
  units : option Q;
  risk_amount : Q;
  max_loss : Q;
  position_value : Q;
  category : string
}.

(** [mockSignals], built at the clock reading [now] (milliseconds). *)
Definition mockSignals (now : Z) : list TradingSignal := [
  {| id := "EUR_USD_H4_1640995200"; pair := "EUR_USD"; timeframe := "H4";
     sig_direction := BUY; strength := 0.75;
     reasons := ["RSI oversold recovery"; "MACD bullish crossover"; "Golden Cross + price above MAs"];
     entry_price := 1.0850; stop_loss := 1.0810;
     take_profit_1 := 1.0890; take_profit_2 := 1.0930; take_profit_3 := 1.0970;
     risk_reward_1 := 1.0; risk_reward_2 := 2.0; risk_reward_3 := 3.0;
     timestamp := now; current_price := 1.0850;
     sig_indicators := {| rsi := 32.5; macd := 0.000123; macd_signal := 0.000089;
                          macd_hist := 0.000034; sma_fast := 1.0840; sma_slow := 1.0820;
                          atr := 0.0025 |};
     status := "ACTIVE" |};
  {| id := "GBP_USD_H1_1640995300"; pair := "GBP_USD"; timeframe := "H1";
     sig_direction := SELL; strength := 0.68;
     reasons := ["RSI overbought decline"; "MACD bearish crossover"];
     entry_price := 1.3420; stop_loss := 1.3460;
     take_profit_1 := 1.3380; take_profit_2 := 1.3340; take_profit_3 := 1.3300;
     risk_reward_1 := 1.0; risk_reward_2 := 2.0; risk_reward_3 := 3.0;
     timestamp := (now - 300000)%Z; current_price := 1.3420;
     sig_indicators := {| rsi := 72.8; macd := -0.000089; macd_signal := 0.000034;
                          macd_hist := -0.000123; sma_fast := 1.3430; sma_slow := 1.3450;
                          atr := 0.0035 |};
     status := "ACTIVE" |}
].

(** [calculatePositionSize] of [Index], closed over [accountBalance] and
    [riskPercent].  [toFixed] is applied to the exact values here, the code
    applies it to the doubles: the two differ at values a double puts on the
    other side of a half; [IndexPageDouble] follows the double arithmetic. *)
Definition calculatePositionSize (accountBalance riskPercent : Q)
    (signal : TradingSignal) : PositionSize :=
  let riskAmount := accountBalance * (riskPercent / 100) in
  let priceDistance := Qabs (entry_price signal - stop_loss signal) in
  let pipValue := 10 in
  let pipsDistance := priceDistance / 0.0001 in
  let lotSize := riskAmount / (pipsDistance * pipValue) in
  {| lot_size := Some (to_fixed 3 lotSize);
     units := None;
     risk_amount := riskAmount;
     max_loss := to_fixed 2 (lotSize * pipsDistance * pipValue);
     position_value := to_fixed 2 (lotSize * 100000 * entry_price signal);
     category := "forex" |}.

End IndexPage.

(** ** The API service (src/unnamed/part_001, [class ApiService]) *)
Module Api.

Record indicators := { rsi : Q; macd : Q; macd_signal : Q; macd_hist : Q }.

(** [export interface TradingSignal]; optional fields are options. *)
Record TradingSignal := {
  id : string;
  pair : string;
  timeframe : string;
  sig_direction : direction;
  strength : Q;
  entry_price : Q;
  current_price : Q;
  stop_loss : Q;
  take_profit_1 : Q;
  take_profit_2 : Q;
  take_profit_3 : Q;
  distance_pips : option Q;
  proximity_score : option Q;
  timestamp : Z;
  reasons : list string;
  sig_indicators : option indicators
}.

Record MarketData := {
  md_pair : string; price : Q; change_24h : Q; volume : Q; md_timestamp : Z
}.

Inductive health := healthy | degraded | unhealthy.

Record SystemStatus := {
  status : health;
  data_available : bool;
  latest_data_age_minutes : option Q;
  st_timestamp : Z
}.

(** What a [fetch] can raise or what the code throws itself. *)
Inductive js_error :=
| NetworkError              (* fetch rejects *)
| AbortError                (* the 10 s AbortController fired *)
| HttpError (code : Z)      (* [throw new Error(`HTTP error! ...`)] *)
| SyntaxError               (* [response.json()] on a body that is not JSON *)
| TypeError.                (* property read on [null] *)

(** An awaited promise: resolved with a value or rejected with an error. *)
Inductive Result (A : Type) := Ok (a : A) | Throw (e : js_error).
Arguments Ok {A} a.
Arguments Throw {A} e.

Definition bind {A B} (m : Result A) (k : A -> Result B) : Result B :=
  match m with Ok a => k a | Throw e => Throw e end.

Notation "'let?' x ':=' m 'in' k" := (bind m (fun x => k))
  (at level 200, x name, m at level 100, k at level 200).

(** [try { body } catch (error) { handler }] *)
Definition try_catch {A} (body : Result A) (handler : js_error -> Result A) : Result A :=
  match body with Ok a => Ok a | Throw e => handler e end.

(** How a request ends: [fetch] rejects, the timeout aborts it, or a response
    arrives with its [ok] flag, its status and its body, [None] when the body
    is not JSON. *)
Inductive fetch_outcome (B : Type) :=
| FNetworkFail
| FTimeout
| FResponse (ok : bool) (code : Z) (body : option B).
Arguments FNetworkFail {B}.
Arguments FTimeout {B}.
Arguments FResponse {B} ok code body.

Record Response (B : Type) := { resp_ok : bool; resp_status : Z; resp_body : option B }.
Arguments resp_ok {B} r.
Arguments resp_status {B} r.
Arguments resp_body {B} r.

(** [fetchWithTimeout]: the abort and the network failure are rethrown. *)
Definition fetchWithTimeout {B} (o : fetch_outcome B) : Result (Response B) :=
  match o with
  | FNetworkFail => Throw NetworkError
  | FTimeout => Throw AbortError
  | FResponse ok code body => Ok {| resp_ok := ok; resp_status := code; resp_body := body |}
  end.

(** [await response.json()] *)
Definition json {B} (r : Response B) : Result B :=
  match resp_body r with Some b => Ok b | None => Throw SyntaxError end.

(** [if (!response.ok) throw new Error(...)] *)
Definition check_ok {B} (r : Response B) : Result unit :=
  if resp_ok r then Ok tt else Throw (HttpError (resp_status r)).

(** The JSON a list endpoint may answer: an array, an object whose [signals]
    field is a (truthy) array or is absent / falsy, [null], or another
    primitive. *)
Inductive list_payload (A : Type) :=
| PArray (l : list A)
| PObject (signals : option (list A))
| PNull
| PPrimitive.
Arguments PArray {A} l.
Arguments PObject {A} signals.
Arguments PNull {A}.
Arguments PPrimitive {A}.

(** [Array.isArray(data) ? data : data.signals || []] *)
Definition signals_of {A} (data : list_payload A) : Result (list A) :=
  match data with
  | PArray l => Ok l
  | PObject (Some l) => Ok l
  | PObject None => Ok []
  | PNull => Throw TypeError
  | PPrimitive => Ok []
  end.

(** The JSON [/signal] may answer: an object, with the truthiness of its
    [signal] field and the object itself, [null], or another primitive. *)
Inductive latest_payload :=
| LObject (signal_truthy : bool) (data : TradingSignal)
| LNull
| LPrimitive.

(** [s.distance_pips || 0] *)
Definition or_zero (d : option Q) : Q :=
  match d with Some x => if Qeq_bool x 0 then 0 else x | None => 0 end.

(** [getMockSignals], at the clock reading [now]. *)
Definition getMockSignals (now : Z) : list TradingSignal := [
  {| id := "1"; pair := "EUR_USD"; timeframe := "H1"; sig_direction := BUY;
     strength := 0.85; entry_price := 1.0950; current_price := 1.0945;
     stop_loss := 1.0920; take_profit_1 := 1.0980; take_profit_2 := 1.1010;
     take_profit_3 := 1.1040; distance_pips := Some 5; proximity_score := Some 0.9;
     timestamp := now;
     reasons := ["RSI oversold recovery"; "MACD bullish crossover"; "Price above SMA"];
     sig_indicators := Some {| rsi := 35.2; macd := 0.0012; macd_signal := 0.0008;
                               macd_hist := 0.0004 |} |};
  {| id := "2"; pair := "GBP_USD"; timeframe := "H4"; sig_direction := SELL;
     strength := 0.72; entry_price := 1.2650; current_price := 1.2655;
     stop_loss := 1.2680; take_profit_1 := 1.2620; take_profit_2 := 1.2590;
     take_profit_3 := 1.2560; distance_pips := Some 5; proximity_score := Some 0.8;
     timestamp := now;
     reasons := ["RSI overbought decline"; "Bearish divergence"];
     sig_indicators := Some {| rsi := 72.8; macd := -0.0008; macd_signal := -0.0003;
                               macd_hist := -0.0005 |} |}
].

Definition getMockMarketData (now : Z) : list MarketData := [
  {| md_pair := "EUR_USD"; price := 1.0945; change_24h := 0.25; volume := 125000;
     md_timestamp := now |};
  {| md_pair := "GBP_USD"; price := 1.2655; change_24h := -0.15; volume := 98000;
     md_timestamp := now |}
].

(** [console.error] has no effect the model tracks. *)

Definition getSignals (now : Z) (o : fetch_outcome (list_payload TradingSignal))
    : Result (list TradingSignal) :=
  try_catch
    (let? response := fetchWithTimeout o in
     let? _ := check_ok response in
     let? data := json response in
     signals_of data)
    (fun _ => Ok (getMockSignals now)).

Definition getLatestSignal (o : fetch_outcome latest_payload)
    : Result (option TradingSignal) :=
  try_catch
    (let? response := fetchWithTimeout o in
     let? _ := check_ok response in
     let? data := json response in
     match data with
     | LObject true d => Ok (Some d)
     | LObject false _ => Ok None
     | LNull => Throw TypeError
     | LPrimitive => Ok None
     end)
    (fun _ => Ok None).

Definition getMarketData (now : Z) (o : fetch_outcome (list MarketData))
    : Result (list MarketData) :=
  try_catch
    (let? response := fetchWithTimeout o in
     let? _ := check_ok response in
     json response)
    (fun _ => Ok (getMockMarketData now)).

Definition getSystemStatus (now : Z) (o : fetch_outcome SystemStatus)
    : Result SystemStatus :=
  try_catch
    (let? response := fetchWithTimeout o in
     let? _ := check_ok response in
     json response)
    (fun _ => Ok {| status := unhealthy; data_available := false;
                    latest_data_age_minutes := None; st_timestamp := now |}).

(** The predicate of the fallback filter of [getProximitySignals]. *)
Definition within (maxDistance : Q) (s : TradingSignal) : bool :=
  Qle_bool (or_zero (distance_pips s)) maxDistance.

Definition getProximitySignals (maxDistance : Q) (now : Z)
    (o : fetch_outcome (list_payload TradingSignal)) : Result (list TradingSignal) :=
  try_catch
    (let? response := fetchWithTimeout o in
     let? _ := check_ok response in
     let? data := json response in
     signals_of data)
    (fun _ => Ok (filter (within maxDistance) (getMockSignals now))).

(** A request that fails: [fetch] rejects, the timeout fires, or the
    response is not OK. *)
Definition failed {B} (o : fetch_outcome B) : Prop :=
  o = FNetworkFail \/ o = FTimeout \/ exists code body, o = FResponse false code body.

End Api.

(** ** [useProximitySignals] (src/src/hooks/useSignals.ts) *)
Module Hooks.
Import Api.

(** The predicate of [veryCloseSignals]. *)
Definition very_close (s : TradingSignal) : bool := Qle_bool (or_zero (distance_pips s)) 5.

(** The signals the notification effect toasts for, given [query.data]. *)
Definition notified (data : option (list TradingSignal)) : list TradingSignal :=
  match data with
  | Some ((_ :: _) as l) => filter very_close l
  | _ => []
  end.

End Hooks.

(** ** The dashboard's refresh and settings (Index.tsx, [TradingSignalDashboard]) *)
Module DashboardUI.
Import Dashboard.

(** [Array.from({ length: n }, f)]: [f] called for the indices [0 .. n-1] in
    order, each call drawing from the same [Math.random] stream. *)
Fixpoint replicateM {A} (n : nat) (m : Rand A) : Rand (list A) :=
  match n with
  | O => rret []
  | S n' => x <- m ;; xs <- replicateM n' m ;; rret (x :: xs)
  end.

(** [Array.from({ length: 8 + Math.floor(Math.random() * 5) }, generateDemoSignal)] *)
Definition newSignals (ps tfs : list string) (now : Z) : Rand (list Signal) :=
  r <- random ;;
  replicateM (Z.to_nat (8 + js_floor (r * 5))%Z) (generateDemoSignal ps tfs now).

(** The predicate of [filteredSignals] in [fetchSignals]. *)
Definition keepSignal (minSignalStrength : Q) (requireMTFConfirmation : bool)
    (signal : Signal) : bool :=
  if Qlt_bool (strength signal) minSignalStrength then false
  else if requireMTFConfirmation && negb (mtf_confirmation signal) then false
  else true.

(** [fetchSignals]: the list it stores in both [signals] and [activeSignals]. *)
Definition fetchSignals (ps tfs : list string) (now : Z) (minSignalStrength : Q)
    (requireMTFConfirmation : bool) : Rand (list Signal) :=
  ns <- newSignals ps tfs now ;;
  rret (filter (keepSignal minSignalStrength requireMTFConfirmation) ns).

(** The [onChange] of a pair (or timeframe) checkbox: checking appends it,
    unchecking removes every occurrence. *)
Definition toggleSelection (checked : bool) (selected : list string) (item : string)
    : list string :=
  if checked then selected ++ [item]
  else filter (fun p => negb (String.eqb p item)) selected.

End DashboardUI.

(** ** The [Index] page's views (Index.tsx, second component) *)
Module IndexView.
Import IndexPage.

(** [activeSignals.reduce((acc, s) => acc + s.strength, 0)] *)
Definition sumStrength (l : list TradingSignal) : Q :=
  fold_left (fun acc s => acc + strength s) l 0.

(** The number of the "Forca Media" card: [Math.round(sum / length * 100)],
    or 0 for no signals (the ['0%'] branch). *)
Definition averageStrength (activeSignals : list TradingSignal) : Q :=
  match activeSignals with
  | [] => 0
  | _ => js_round (sumStrength activeSignals / inject_Z (Z.of_nat (length activeSignals)) * 100)
  end.

End IndexView.

(** ** [SignalsTable] and the proximity page (src/src/components/SignalsTable.tsx) *)
Module Table.
Import Api.

(** [getStrengthBadge]: the percentage shown and the badge colour. *)
Definition getStrengthBadge (strength : Q) : Q * string :=
  let percentage := js_round (strength * 100) in
  (percentage,
   if Qle_bool 80 percentage then "bg-green-500"
   else if Qle_bool 60 percentage then "bg-yellow-500" else "bg-gray-500").

(** [getStatusColor] of the page, on [systemStatus] ([undefined] while the
    query has no data). *)
Definition getStatusColor (systemStatus : option SystemStatus) : string :=
  match systemStatus with
  | None => "bg-gray-500"
  | Some st =>
    match status st with
    | healthy => "bg-green-500"
    | degraded => "bg-yellow-500"
    | unhealthy => "bg-red-500"
    end
  end.

(** The query data a resolved query function leaves, [undefined] else. *)
Definition query_data {A} (r : Result A) : option A :=
  match r with Ok a => Some a | Throw _ => None end.

End Table.

(** ** The position-size calculators in binary64

    JavaScript numbers are IEEE binary64 doubles; [+ - * /] and [Math.abs]
    below are the kernel's primitive binary64 operations (round to nearest,
    ties to even), decimal literals are read as the nearest double. *)
Module Binary64.
Import PrimFloat.

(** The exact value of a finite double; [None] for NaN and the infinities. *)
Definition to_Q (x : float) : option Q :=
  match FloatOps.Prim2SF x with
  | SpecFloat.S754_zero _ => Some 0
  | SpecFloat.S754_finite s m e =>
      let a := if (0 <=? e)%Z then inject_Z (Zpos m * 2 ^ e)
               else Zpos m # Z.to_pos (2 ^ (- e)) in
      Some (if s then - a else a)
  | _ => None
  end.

(** The double nearest to [q], ties to even (the binary64 quotient of its
    numerator by its denominator): what [parseFloat] reads from a decimal
    string. *)
Definition of_Q (q : Q) : float :=
  match Qnum q with
  | Z0 => PrimFloat.zero
  | Zpos n => FloatOps.SF2Prim (SpecFloat.SFdiv FloatOps.prec FloatOps.emax
                (SpecFloat.S754_finite false n 0) (SpecFloat.S754_finite false (Qden q) 0))
  | Zneg n => FloatOps.SF2Prim (SpecFloat.SFdiv FloatOps.prec FloatOps.emax
                (SpecFloat.S754_finite true n 0) (SpecFloat.S754_finite false (Qden q) 0))
  end.

(** [Math.round]: the integer nearest the exact value of [x], halves
    towards +infinity; NaN and the infinities are returned as they are, and
    a result 0 carries the sign of [x] (+0 on (0, 0.5), -0 on [-0.5, 0)). *)
Definition math_round (x : float) : float :=
  match to_Q x with
  | None => x
  | Some q =>
    let k := Qfloor (q + (1#2)) in
    if (k =? 0)%Z then (if PrimFloat.get_sign x then PrimFloat.neg_zero else PrimFloat.zero)
    else of_Q (inject_Z k)
  end.

(** [parseFloat(x.toFixed(digits))].  For a finite [x] with [|x| < 10^21]
    [toFixed] prints the integer [n] nearest [|x| * 10^digits] (the larger
    on a tie) over [10^digits], after a minus sign when [x < 0];
    [parseFloat] reads it back as the nearest double ([-0.000] as -0).
    Otherwise [toFixed] prints [x] itself ([NaN], [Infinity] or its
    shortest decimal), which reads back as [x]. *)
Definition parse_to_fixed (digits : nat) (x : float) : float :=
  match to_Q x with
  | None => x
  | Some q =>
    if Qle_bool (inject_Z (10 ^ 21)) (Qabs q) then x else
    let p := (10 ^ Z.of_nat digits)%Z in
    let r := of_Q (Qfloor (Qabs q * inject_Z p + (1#2)) # Z.to_pos p) in
    if Qlt_bool q 0 then PrimFloat.opp r else r
  end.

End Binary64.

(** [calculatePositionSize] of the dashboard (Index.tsx, lines 182-201) in
    binary64. *)
Module DashboardDouble.
Import PrimFloat.
Local Open Scope float_scope.

Record PositionSizing := {
  account_balance : float;
  risk_percent : float;
  lot_size : float;
  risk_amount : float;
  max_loss : float
}.

(** [signal.pair.includes('JPY') ? 0.01 : 0.0001] *)
Definition pipSize (pair : string) : float :=
  if includes pair "JPY" then 0.01 else 0.0001.

(** The calculator on a signal with [pair], [entry_price] and [stop_loss]
    (the fields it reads), closed over [accountBalance] and [riskPercent];
    the result is what it stores with [setPositionSizing]. *)
Definition calculatePositionSize (accountBalance riskPercent : float)
    (pair : string) (entry_price stop_loss : float) : PositionSizing :=
  let riskAmount := (accountBalance * riskPercent) / 100 in
  let pipDistance := PrimFloat.abs (entry_price - stop_loss) in
  let pipValue := pipSize pair in
  let pips := pipDistance / pipValue in
  let lotSize := riskAmount / (pips * 10) in
  let maxLoss := lotSize * pips * 10 in
  {| account_balance := accountBalance;
     risk_percent := riskPercent;
     lot_size := Binary64.math_round (lotSize * 100) / 100;
     risk_amount := riskAmount;
     max_loss := maxLoss |}.

End DashboardDouble.

(** [calculatePositionSize] of [Index] (Index.tsx, lines 859-873) in
    binary64. *)
Module IndexPageDouble.
Import PrimFloat.
Local Open Scope float_scope.

Record PositionSize := {
  lot_size : float;
  risk_amount : float;
  max_loss : float;
  position_value : float;
  category : string
}.

(** The calculator on a signal with [entry_price] and [stop_loss] (the
    fields it reads), closed over [accountBalance] and [riskPercent]. *)
Definition calculatePositionSize (accountBalance riskPercent : float)
    (entry_price stop_loss : float) : PositionSize :=
  let riskAmount := accountBalance * (riskPercent / 100) in
  let priceDistance := PrimFloat.abs (entry_price - stop_loss) in
  let pipValue := 10 in
  let pipsDistance := priceDistance / 0.0001 in
  let lotSize := riskAmount / (pipsDistance * pipValue) in
  {| lot_size := Binary64.parse_to_fixed 3 lotSize;
     risk_amount := riskAmount;
     max_loss := Binary64.parse_to_fixed 2 (lotSize * pipsDistance * pipValue);
     position_value := Binary64.parse_to_fixed 2 (lotSize * 100000 * entry_price);
     category := "forex" |}.

End IndexPageDouble.

(** The position-size formulas as the specification states them, on exact
    numbers. *)
Module SpecPositionSize.

Definition riskAmount (accountBalance riskPercent : Q) : Q :=
  accountBalance * riskPercent / 100.

Definition pipDistance (entry_price stop_loss pipSize : Q) : Q :=
  Qabs (entry_price - stop_loss) / pipSize.

Definition lotSize (accountBalance riskPercent entry_price stop_loss pipSize
    pipValuePerLot : Q) : Q :=
  riskAmount accountBalance riskPercent /
  (pipDistance entry_price stop_loss pipSize * pipValuePerLot).

End SpecPositionSize.

(** ** The Python engine (not part of the sources; modelled from the spec) *)
Module Engine.
Import Api.

Record RiskLevels := { rl_stop : Q; rl_tp1 : Q; rl_tp2 : Q; rl_tp3 : Q }.

(** Modelled from the spec: the Risk Level Calculator of section 4.5, absent
    from the sources.  [risk_distance = ATR * multiplier]; the stop lies one
    risk distance against the direction, take-profit [n] lies [n] risk
    distances with it; the calculator refuses [ATR <= 0]. *)
Definition riskLevels (entry : Q) (dir : direction) (atr multiplier : Q) : option RiskLevels :=
  if Qle_bool atr 0 then None else
  let d := atr * multiplier in
  match dir with
  | BUY => Some {| rl_stop := entry - d; rl_tp1 := entry + 1 * d;
                   rl_tp2 := entry + 2 * d; rl_tp3 := entry + 3 * d |}
  | SELL => Some {| rl_stop := entry + d; rl_tp1 := entry - 1 * d;
                    rl_tp2 := entry - 2 * d; rl_tp3 := entry - 3 * d |}
  end.

Definition clamp (x lo hi : Q) : Q :=
  if Qle_bool x lo then lo else if Qle_bool hi x then hi else x.

(** Modelled from the spec: the Proximity Scorer of section 4.6, absent from
    the sources.  [distance_pips = |current - entry| / pip_size],
    [proximity_score = clamp(1 - distance_pips / max_distance_pips, 0, 1)]. *)
Definition scoreProximity (entry pip_size current max_distance_pips : Q) : Q * Q :=
  let distance_pips := Qabs (current - entry) / pip_size in
  (distance_pips, clamp (1 - distance_pips / max_distance_pips) 0 1).

(** Modelled from the spec: membership of the "near" view, section 4.6. *)
Definition near (distance_pips max_distance_pips : Q) : bool :=
  Qle_bool distance_pips max_distance_pips.

(** The pair's pip size.  The spec only says it is pair-dependent and calls
    the JPY one "smaller"; the values here are those the front end's
    dashboard calculator uses (0.01 for JPY-quoted pairs, 0.0001 otherwise),
    so the JPY pip size is the larger one.  No theorem below depends on the
    JPY value. *)
Definition pip_size (pair : string) : Q := if includes pair "JPY" then 0.01 else 0.0001.

(** Modelled from the spec: proximity fields attached to a stored signal when
    a live-price query is served. *)
Definition attach (live : string -> Q) (max_distance_pips : Q) (s : TradingSignal) : TradingSignal :=
  let cur := live (pair s) in
  let (d, sc) := scoreProximity (entry_price s) (pip_size (pair s)) cur max_distance_pips in
  {| id := id s; pair := pair s; timeframe := timeframe s; sig_direction := sig_direction s;
     strength := strength s; entry_price := entry_price s; current_price := cur;
     stop_loss := stop_loss s; take_profit_1 := take_profit_1 s;
     take_profit_2 := take_profit_2 s; take_profit_3 := take_profit_3 s;
     distance_pips := Some d; proximity_score := Some sc; timestamp := timestamp s;
     reasons := reasons s; sig_indicators := sig_indicators s |}.

(** Modelled from the spec: the "all signals" view served at [/signals]:
    every stored signal, whatever its distance. *)
Definition serve_signals (store : list TradingSignal) : list TradingSignal := store.

(** Modelled from the spec: the "near" view served at
    [/proximity-signals?max_distance=m]. *)
Definition serve_proximity (live : string -> Q) (m : Q) (store : list TradingSignal)
    : list TradingSignal :=
  filter (fun s => match distance_pips s with Some d => near d m | None => false end)
         (map (attach live m) store).

(** The JSON shape the server answers a list in: a bare array, or an object
    with a [signals] field. *)
Definition encode_list {A} (as_array : bool) (l : list A) : list_payload A :=
  if as_array then PArray l else PObject (Some l).

End Engine.

(** ** Sample inputs *)

(** A EUR/USD dashboard signal, 40 pips between entry and stop. *)
Definition dash_eur : Dashboard.Signal := {|
  Dashboard.id_time := 0; Dashboard.id_rand := 0; Dashboard.pair := "EUR_USD";
  Dashboard.timeframe := "H4"; Dashboard.sig_direction := BUY; Dashboard.strength := 75;
  Dashboard.entry_price := 1.0850; Dashboard.stop_loss := 1.0810;
  Dashboard.take_profit_1 := 1.0890; Dashboard.take_profit_2 := 1.0930;
  Dashboard.take_profit_3 := 1.0970; Dashboard.risk_reward_1 := 1.0;
  Dashboard.risk_reward_2 := 2.0; Dashboard.risk_reward_3 := 3.0;
  Dashboard.timestamp := 0; Dashboard.reasons := []; Dashboard.mtf_confirmation := true;
  Dashboard.mtf_confirmation_percentage := 80; Dashboard.session := "london";
  Dashboard.sig_volatility_info := {| Dashboard.atr_percentile := 50;
                                      Dashboard.sufficient_volatility := true |} |}.

(** A USD/JPY signal of the [Index] page, 20 JPY pips between entry and stop. *)
Definition index_jpy : IndexPage.TradingSignal := {|
  IndexPage.id := "USD_JPY_H1_1"; IndexPage.pair := "USD_JPY"; IndexPage.timeframe := "H1";
  IndexPage.sig_direction := BUY; IndexPage.strength := 0.7; IndexPage.reasons := [];
  IndexPage.entry_price := 150.00; IndexPage.stop_loss := 149.80;
  IndexPage.take_profit_1 := 150.20; IndexPage.take_profit_2 := 150.40;
  IndexPage.take_profit_3 := 150.60; IndexPage.risk_reward_1 := 1.0;
  IndexPage.risk_reward_2 := 2.0; IndexPage.risk_reward_3 := 3.0;
  IndexPage.timestamp := 0; IndexPage.current_price := 150.00;
  IndexPage.sig_indicators := {| IndexPage.rsi := 50; IndexPage.macd := 0;
     IndexPage.macd_signal := 0; IndexPage.macd_hist := 0; IndexPage.sma_fast := 150;
     IndexPage.sma_slow := 150; IndexPage.atr := 0.12 |};
  IndexPage.status := "ACTIVE" |}.

(** The same trade as a dashboard signal. *)
Definition dash_jpy : Dashboard.Signal := {|
  Dashboard.id_time := 0; Dashboard.id_rand := 0; Dashboard.pair := "USD_JPY";
  Dashboard.timeframe := "H1"; Dashboard.sig_direction := BUY; Dashboard.strength := 70;
  Dashboard.entry_price := 150.00; Dashboard.stop_loss := 149.80;
  Dashboard.take_profit_1 := 150.20; Dashboard.take_profit_2 := 150.40;
  Dashboard.take_profit_3 := 150.60; Dashboard.risk_reward_1 := 1.0;
  Dashboard.risk_reward_2 := 2.0; Dashboard.risk_reward_3 := 3.0;
  Dashboard.timestamp := 0; Dashboard.reasons := []; Dashboard.mtf_confirmation := true;
  Dashboard.mtf_confirmation_percentage := 80; Dashboard.session := "london";
  Dashboard.sig_volatility_info := {| Dashboard.atr_percentile := 50;
                                      Dashboard.sufficient_volatility := true |} |}.

(** An API signal without the optional proximity fields. *)
Definition api_unscored : Api.TradingSignal := {|
  Api.id := "3"; Api.pair := "USD_JPY"; Api.timeframe := "H1"; Api.sig_direction := SELL;
  Api.strength := 0.6; Api.entry_price := 150.00; Api.current_price := 150.30;
  Api.stop_loss := 150.30; Api.take_profit_1 := 149.70; Api.take_profit_2 := 149.40;
  Api.take_profit_3 := 149.10; Api.distance_pips := None; Api.proximity_score := None;
  Api.timestamp := 0; Api.reasons := []; Api.sig_indicators := None |}.

(** ** Lemmas about the model *)

Definition draw (i : nat) (g : list Q) : Q := nth i g 0.

Lemma draw_range (i : nat) (g : list Q) : valid_draws g -> 0 <= draw i g < 1.
Proof.
  unfold draw, valid_draws. revert g. induction i as [|i IH]; intros g Hg.
  - destruct Hg as [|r g' Hr _]; simpl; [lra | exact Hr].
  - destruct Hg as [|r g' _ Hg']; simpl; [lra | apply IH, Hg'].
Qed.

Ltac peel_draws g :=
  unfold Dashboard.demo; cbn;
  do 10 (destruct g as [|? g]; [cbn; repeat split; reflexivity|]);
  cbn; repeat split; reflexivity.

Section DemoFields.
Import Dashboard.

Lemma demo_strength (ps tfs : list string) (now : Z) (g : list Q) :
  strength (demo ps tfs now g) = 60 + draw 3 g * 40.
Proof. peel_draws g. Qed.

Lemma demo_levels (ps tfs : list string) (now : Z) (g : list Q) :
  let s := demo ps tfs now g in
  let pv := if includes (pair s) "JPY" then 0.01 else 0.0001 in
  let spread := 10 + draw 5 g * 20 in
  let e := entry_price s in
  let risk := Qabs (e - stop_loss s) in
  stop_loss s = match sig_direction s with BUY => e - spread * pv | SELL => e + spread * pv end /\
  take_profit_1 s = match sig_direction s with BUY => e + risk | SELL => e - risk end /\
  take_profit_2 s = match sig_direction s with BUY => e + risk * 2 | SELL => e - risk * 2 end /\
  take_profit_3 s = match sig_direction s with BUY => e + risk * 3 | SELL => e - risk * 3 end /\
  risk_reward_1 s = 1.0 /\ risk_reward_2 s = 2.0 /\ risk_reward_3 s = 3.0.
Proof. peel_draws g. Qed.

End DemoFields.

Lemma within_some (m d : Q) (s : Api.TradingSignal) :
  Api.distance_pips s = Some d -> (Api.within m s = true <-> d <= m).
Proof.
  intro E. unfold Api.within, Api.or_zero. rewrite E.
  destruct (Qeq_bool d 0) eqn:Z0.
  - apply Qeq_bool_iff in Z0. rewrite Qle_bool_iff. split; intro; lra.
  - apply Qle_bool_iff.
Qed.

(** Filtering a list whose signals all carry a distance keeps exactly those
    within the bound. *)
Lemma filter_within_iff (m : Q) (l : list Api.TradingSignal) (s : Api.TradingSignal) :
  (forall t, In t l -> Api.distance_pips t <> None) ->
  (In s (filter (Api.within m) l) <->
   In s l /\ exists d, Api.distance_pips s = Some d /\ d <= m).
Proof.
  intro Hl. rewrite filter_In. split.
  - intros [Hin Hw]. split; [exact Hin|].
    destruct (Api.distance_pips s) as [d|] eqn:E; [|exfalso; exact (Hl s Hin E)].
    exists d. split; [reflexivity|]. apply (within_some m d s E). exact Hw.
  - intros [Hin [d [E Hd]]]. split; [exact Hin|]. apply (within_some m d s E). exact Hd.
Qed.

Lemma mocks_scored (now : Z) (t : Api.TradingSignal) :
  In t (Api.getMockSignals now) -> Api.distance_pips t <> None.
Proof. simpl. intros [<-|[<-|[]]]; discriminate. Qed.

(** A [try] whose [catch] always returns a value never rejects. *)
Lemma try_catch_ok {A} (b : Api.Result A) (h : Api.js_error -> Api.Result A) :
  (forall e, exists v, h e = Api.Ok v) -> exists v, Api.try_catch b h = Api.Ok v.
Proof. intro H. destruct b as [a|e]; simpl; [eexists; reflexivity | apply H]. Qed.

(** Removes [Qabs] of a difference whose sign the context fixes, then closes
    a linear goal. *)
Ltac drop_abs :=
  repeat match goal with
  | |- context [Qabs ?x] =>
      let H := fresh "Habs" in
      first [ assert (H : Qabs x == x) by (apply Qabs_pos; lra)
            | assert (H : Qabs x == - x) by (apply Qabs_neg; lra) ];
      revert H; generalize (Qabs x); intros ? H
  end; lra.

(** ** Claims *)

(** C1 (counterexample).  The claim that every signal [generateDemoSignal]
    produces has its strength in [0,1] fails: with every [Math.random()]
    returning 0 the strength is 60. *)
Lemma demo_strength_not_unit :
  ~ (forall ps tfs now g, valid_draws g ->
       0 <= Dashboard.strength (Dashboard.demo ps tfs now g) <= 1).
Proof.
  intro H. specialize (H [] [] 0%Z [] (Forall_nil _)).
  rewrite demo_strength in H. unfold draw in H. simpl in H. lra.
Qed.

(** C1 (amended).  [generateDemoSignal] works on a percentage scale: its
    strength lies in [60,100).  The mock signals of the API service and of the
    [Index] page carry strengths in [0,1]. *)
Theorem strength_scales (ps tfs : list string) (now : Z) (g : list Q)
    (Hg : valid_draws g) :
  (60 <= Dashboard.strength (Dashboard.demo ps tfs now g) < 100) /\
  Forall (fun s => 0 <= Api.strength s <= 1) (Api.getMockSignals now) /\
  Forall (fun s => 0 <= IndexPage.strength s <= 1) (IndexPage.mockSignals now).
Proof.
  pose proof (draw_range 3 g Hg).
  split; [rewrite demo_strength; lra|].
  split; repeat constructor; simpl; lra.
Qed.

Lemma strength_scales_witness :
  valid_draws [0.5; 0.5; 0.5; 0.99] /\
  (60 <= Dashboard.strength (Dashboard.demo [] [] 0%Z [0.5; 0.5; 0.5; 0.99]) < 100) /\
  Forall (fun s => 0 <= Api.strength s <= 1) (Api.getMockSignals 0%Z) /\
  Forall (fun s => 0 <= IndexPage.strength s <= 1) (IndexPage.mockSignals 0%Z).
Proof.
  assert (Hv : valid_draws [0.5; 0.5; 0.5; 0.99])
    by (repeat constructor; unfold Qle, Qlt; simpl; lia).
  split; [exact Hv | apply (strength_scales [] [] 0%Z _ Hv)].
Defined.

(** C4.  A signal built by [generateDemoSignal] has, for BUY,
    stop_loss < entry_price < take_profit_1 < take_profit_2 < take_profit_3,
    and for SELL the mirrored chain. *)
Theorem demo_levels_ordered (ps tfs : list string) (now : Z) (g : list Q)
    (Hg : valid_draws g) :
  let s := Dashboard.demo ps tfs now g in
  match Dashboard.sig_direction s with
  | BUY => Dashboard.stop_loss s < Dashboard.entry_price s /\
           Dashboard.entry_price s < Dashboard.take_profit_1 s /\
           Dashboard.take_profit_1 s < Dashboard.take_profit_2 s /\
           Dashboard.take_profit_2 s < Dashboard.take_profit_3 s
  | SELL => Dashboard.entry_price s < Dashboard.stop_loss s /\
            Dashboard.take_profit_1 s < Dashboard.entry_price s /\
            Dashboard.take_profit_2 s < Dashboard.take_profit_1 s /\
            Dashboard.take_profit_3 s < Dashboard.take_profit_2 s
  end.
Proof.
  cbv zeta.
  pose proof (draw_range 5 g Hg) as Hr.
  pose proof (demo_levels ps tfs now g) as L; cbv zeta in L.
  destruct L as [Hs [H1 [H2 [H3 _]]]].
  rewrite H1, H2, H3.
  destruct (Dashboard.sig_direction (Dashboard.demo ps tfs now g));
  destruct (includes (Dashboard.pair (Dashboard.demo ps tfs now g)) "JPY");
  rewrite Hs; repeat split; drop_abs.
Qed.

Lemma demo_levels_ordered_witness :
  valid_draws [0; 0; 0.7; 0; 0.25; 0.5] /\
  Dashboard.sig_direction (Dashboard.demo [] [] 0%Z [0; 0; 0.7; 0; 0.25; 0.5]) = SELL /\
  (Dashboard.entry_price (Dashboard.demo [] [] 0%Z [0; 0; 0.7; 0; 0.25; 0.5]) <
   Dashboard.stop_loss (Dashboard.demo [] [] 0%Z [0; 0; 0.7; 0; 0.25; 0.5])).
Proof.
  assert (Hv : valid_draws [0; 0; 0.7; 0; 0.25; 0.5])
    by (repeat constructor; unfold Qle, Qlt; simpl; lia).
  split; [exact Hv|]. split; [reflexivity|].
  exact (proj1 (demo_levels_ordered [] [] 0%Z _ Hv)).
Defined.

(** C5.  For a signal built by [generateDemoSignal], take-profit [n]
    (n = 1, 2, 3) lies [n] entry-to-stop distances from the entry, on the
    profit side (the stop is below the entry for BUY, above it for SELL),
    and [risk_reward_n = n]. *)
Theorem demo_targets_multiples (ps tfs : list string) (now : Z) (g : list Q)
    (Hg : valid_draws g) :
  let s := Dashboard.demo ps tfs now g in
  let e := Dashboard.entry_price s in
  let st := Dashboard.stop_loss s in
  (match Dashboard.sig_direction s with BUY => st < e | SELL => e < st end) /\
  Dashboard.take_profit_1 s - e == 1 * (e - st) /\
  Dashboard.take_profit_2 s - e == 2 * (e - st) /\
  Dashboard.take_profit_3 s - e == 3 * (e - st) /\
  Dashboard.risk_reward_1 s == 1 /\
  Dashboard.risk_reward_2 s == 2 /\
  Dashboard.risk_reward_3 s == 3.
Proof.
  cbv zeta.
  pose proof (draw_range 5 g Hg) as Hr.
  pose proof (demo_levels ps tfs now g) as L; cbv zeta in L.
  destruct L as [Hs [H1 [H2 [H3 [R1 [R2 R3]]]]]].
  rewrite H1, H2, H3, R1, R2, R3.
  destruct (Dashboard.sig_direction (Dashboard.demo ps tfs now g));
  destruct (includes (Dashboard.pair (Dashboard.demo ps tfs now g)) "JPY");
  rewrite Hs; repeat split; try reflexivity; drop_abs.
Qed.

Lemma demo_targets_multiples_witness :
  valid_draws [0; 0.9; 0.2; 0; 0.5; 0.5] /\
  Dashboard.take_profit_3 (Dashboard.demo [] [] 0%Z [0; 0.9; 0.2; 0; 0.5; 0.5]) -
  Dashboard.entry_price (Dashboard.demo [] [] 0%Z [0; 0.9; 0.2; 0; 0.5; 0.5]) ==
  3 * (Dashboard.entry_price (Dashboard.demo [] [] 0%Z [0; 0.9; 0.2; 0; 0.5; 0.5]) -
       Dashboard.stop_loss (Dashboard.demo [] [] 0%Z [0; 0.9; 0.2; 0; 0.5; 0.5])).
Proof.
  assert (Hv : valid_draws [0; 0.9; 0.2; 0; 0.5; 0.5])
    by (repeat constructor; unfold Qle, Qlt; simpl; lia).
  split; [exact Hv|].
  exact (proj1 (proj2 (proj2 (proj2 (demo_targets_multiples [] [] 0%Z _ Hv))))).
Defined.

(** The C2 statements read [float] literals and operations. *)
Section PositionSizeDouble.
Import PrimFloat.

(** C2 (counterexample).  The dashboard calculator does not return the lot
    [riskAmount / (pipDistance * 10)] as [lot_size], and its [max_loss] is not
    [lot_size * pipDistance * 10]: for a balance of 1000 at 1 % risk on a
    40-pip EUR/USD stop (1.0850 / 1.0810) the lot of the formula is 1/40, the
    double lot is 0.024999999999999977, so [Math.round] gives [lot_size]
    0.02, and [max_loss] is 10, not 0.02 * 40 * 10 = 8. *)
Lemma position_size_lot_is_rounded :
  let r := DashboardDouble.calculatePositionSize 1000 1 "EUR_USD" 1.0850 1.0810 in
  DashboardDouble.lot_size r = 0.02%float /\
  exists lot maxLoss,
    Binary64.to_Q (DashboardDouble.lot_size r) = Some lot /\
    Binary64.to_Q (DashboardDouble.max_loss r) = Some maxLoss /\
    SpecPositionSize.lotSize 1000 1 1.0850 1.0810 0.0001 10 == 1 # 40 /\
    1 # 250 < SpecPositionSize.lotSize 1000 1 1.0850 1.0810 0.0001 10 - lot /\
    1 < maxLoss - lot * SpecPositionSize.pipDistance 1.0850 1.0810 0.0001 * 10.
Proof.
  cbv zeta. split; [vm_compute; reflexivity|].
  eexists; eexists. split; [vm_compute; reflexivity|]. split; [vm_compute; reflexivity|].
  vm_compute. repeat split; reflexivity.
Qed.

(** C2 (amended).  Both calculators compute in double arithmetic, with a
    fixed value of 10 per pip per lot, the risk amount
    [balance * riskPercent / 100], the pips [|entry - stop| / pipSize] and
    the lot [riskAmount / (pips * 10)], and each returns that lot rounded as
    [lot_size]: the dashboard returns [lot_size = Math.round(lot * 100) / 100] and as
    [max_loss] the unrounded [lot * pips * 10]; [Index] returns
    [lot_size = parseFloat(lot.toFixed(3))] and
    [max_loss = parseFloat((lot * pips * 10).toFixed(2))].  The dashboard's
    pip size is 0.01 for JPY pairs and 0.0001 otherwise; the [Index] part is
    stated for the pairs whose pip size is 0.0001 (JPY pairs: see C3). *)
Theorem position_size_formulas (accountBalance riskPercent : PrimFloat.float)
    (pair : string) (entry_price stop_loss : PrimFloat.float) :
  (let pips := (PrimFloat.abs (entry_price - stop_loss) / DashboardDouble.pipSize pair)%float in
   let riskAmount := ((accountBalance * riskPercent) / 100)%float in
   let lot := (riskAmount / (pips * 10))%float in
   let r := DashboardDouble.calculatePositionSize accountBalance riskPercent pair
              entry_price stop_loss in
   DashboardDouble.risk_amount r = riskAmount /\
   DashboardDouble.lot_size r = (Binary64.math_round (lot * 100) / 100)%float /\
   DashboardDouble.max_loss r = (lot * pips * 10)%float) /\
  (includes pair "JPY" = false ->
   let pips := (PrimFloat.abs (entry_price - stop_loss) / DashboardDouble.pipSize pair)%float in
   let riskAmount := (accountBalance * (riskPercent / 100))%float in
   let lot := (riskAmount / (pips * 10))%float in
   let r := IndexPageDouble.calculatePositionSize accountBalance riskPercent
              entry_price stop_loss in
   IndexPageDouble.risk_amount r = riskAmount /\
   IndexPageDouble.lot_size r = Binary64.parse_to_fixed 3 lot /\
   IndexPageDouble.max_loss r = Binary64.parse_to_fixed 2 (lot * pips * 10)%float).
Proof.
  split.
  - repeat split.
  - intro H. unfold DashboardDouble.pipSize. rewrite H. repeat split.
Qed.

Lemma position_size_formulas_witness :
  includes "EUR_USD" "JPY" = false /\
  IndexPageDouble.lot_size
    (IndexPageDouble.calculatePositionSize 1000 0.5 1.0850 1.0810) =
  Binary64.parse_to_fixed 3
    ((1000 * (0.5 / 100)) /
     (PrimFloat.abs (1.0850 - 1.0810) / DashboardDouble.pipSize "EUR_USD" * 10))%float /\
  IndexPageDouble.lot_size
    (IndexPageDouble.calculatePositionSize 1000 0.5 1.0850 1.0810) = 0.012%float.
Proof.
  assert (H : includes "EUR_USD" "JPY" = false) by reflexivity.
  split; [exact H|]. split.
  - exact (proj1 (proj2 (proj2 (position_size_formulas 1000 0.5 "EUR_USD" 1.0850 1.0810) H))).
  - vm_compute. reflexivity.
Defined.

End PositionSizeDouble.

(** C3 (code bug).  The [Index] calculator divides by 0.0001 whatever the
    pair: on a USD/JPY trade 0.20 yen wide it counts 2000 pips, not 20, and
    returns a lot of 0.001 where the JPY pip size gives 0.05, the lot the
    dashboard calculator returns for the same trade. *)
Theorem index_position_size_ignores_jpy :
  (exists l, IndexPage.lot_size (IndexPage.calculatePositionSize 1000 1 index_jpy) = Some l /\
             l == 0.001) /\
  Qabs (IndexPage.entry_price index_jpy - IndexPage.stop_loss index_jpy) / 0.0001 == 2000 /\
  Qabs (IndexPage.entry_price index_jpy - IndexPage.stop_loss index_jpy) / 0.01 == 20 /\
  to_fixed 3 ((1000 * (1 / 100)) /
              (Qabs (IndexPage.entry_price index_jpy - IndexPage.stop_loss index_jpy) / 0.01 * 10))
    == 0.05 /\
  (exists p, Dashboard.calculatePositionSize 1000 1 (Some dash_jpy) = Some p /\
             Dashboard.lot_size p == 0.05).
Proof.
  split; [eexists; split; [reflexivity | vm_compute; reflexivity]|].
  split; [vm_compute; reflexivity|].
  split; [vm_compute; reflexivity|].
  split; [vm_compute; reflexivity|].
  eexists. split; [reflexivity | vm_compute; reflexivity].
Qed.

(** C6 (counterexample).  The EUR/USD mock signal of the API service does not
    carry the proximity score the scorer gives its prices: it carries 0.9,
    the scorer gives 1 - 5/15. *)
Lemma mock_proximity_score_fixed :
  ~ (forall (now : Z) (m : Api.TradingSignal) (p : Q),
       hd_error (Api.getMockSignals now) = Some m ->
       Api.proximity_score m = Some p ->
       p == snd (Engine.scoreProximity (Api.entry_price m) 0.0001 (Api.current_price m) 15)).
Proof.
  intro H. specialize (H 0%Z _ _ eq_refl eq_refl). vm_compute in H. discriminate H.
Qed.

(** C6 (amended).  With max_distance_pips = 15, pip size 0.0001, entry 1.0950
    and current price 1.0945 the scorer gives distance_pips = 5 and
    proximity_score = 1 - 5/15 = 2/3, and the signal is in the "near" view.
    The EUR/USD mock signal with these prices carries distance_pips = 5 and
    passes the fallback filter at 15, but carries the fixed proximity_score
    0.9. *)
Theorem proximity_scenario (now : Z) :
  let r := Engine.scoreProximity 1.0950 0.0001 1.0945 15 in
  fst r == 5 /\ snd r == 2 # 3 /\ snd r == 1 - 5 / 15 /\ Engine.near (fst r) 15 = true /\
  exists m, hd_error (Api.getMockSignals now) = Some m /\
    Api.pair m = "EUR_USD" /\ Api.entry_price m == 1.0950 /\ Api.current_price m == 1.0945 /\
    Api.distance_pips m = Some 5 /\ Api.within 15 m = true /\
    Api.proximity_score m = Some 0.9.
Proof.
  cbv zeta.
  split; [vm_compute; reflexivity|].
  split; [vm_compute; reflexivity|].
  split; [vm_compute; reflexivity|].
  split; [vm_compute; reflexivity|].
  eexists. split; [reflexivity|].
  repeat split; reflexivity.
Qed.

(** C7.  The "all signals" view applies no distance filter: [getSignals]
    returns every signal the server lists, or every mock signal when the
    request fails.  The "near" view keeps exactly the signals within
    [maxDistance]: on success the server's (modelled) near view, on failure
    the mock signals whose distance_pips is at most [maxDistance]. *)
Theorem views_by_distance (live : string -> Q) (m : Q) (now : Z)
    (store : list Api.TradingSignal) (as_array : bool) (code : Z) :
  Api.getSignals now
    (Api.FResponse true code (Some (Engine.encode_list as_array (Engine.serve_signals store))))
    = Api.Ok store /\
  (exists l,
    Api.getProximitySignals m now
      (Api.FResponse true code (Some (Engine.encode_list as_array (Engine.serve_proximity live m store))))
      = Api.Ok l /\
    forall s, In s l <->
      (exists s0, In s0 store /\ s = Engine.attach live m s0) /\
      exists d, Api.distance_pips s = Some d /\ d <= m) /\
  (forall o1 o2, Api.failed o1 -> Api.failed o2 ->
    Api.getSignals now o1 = Api.Ok (Api.getMockSignals now) /\
    exists l, Api.getProximitySignals m now o2 = Api.Ok l /\
      forall s, In s l <-> In s (Api.getMockSignals now) /\
                exists d, Api.distance_pips s = Some d /\ d <= m).
Proof.
  split; [destruct as_array; reflexivity|].
  split.
  - eexists. split; [destruct as_array; reflexivity|].
    intro s. unfold Engine.serve_proximity. rewrite filter_In, in_map_iff.
    split.
    + intros [[s0 [<- Hin]] Hn]. split; [exists s0; split; [exact Hin | reflexivity]|].
      destruct (Api.distance_pips (Engine.attach live m s0)) as [d|]; [|discriminate].
      exists d. split; [reflexivity|]. apply Qle_bool_iff. exact Hn.
    + intros [[s0 [Hin ->]] [d [E Hd]]]. split; [exists s0; split; [reflexivity | exact Hin]|].
      rewrite E. apply Qle_bool_iff. exact Hd.
  - intros o1 o2 H1 H2. split.
    + destruct H1 as [->|[->|[c [b ->]]]]; reflexivity.
    + exists (filter (Api.within m) (Api.getMockSignals now)). split.
      * destruct H2 as [->|[->|[c [b ->]]]]; reflexivity.
      * intro s. apply filter_within_iff, mocks_scored.
Qed.

Lemma views_by_distance_witness :
  Api.failed (@Api.FNetworkFail (Api.list_payload Api.TradingSignal)) /\
  Api.failed (@Api.FResponse (Api.list_payload Api.TradingSignal) false 503 None) /\
  Api.getSignals 0 Api.FNetworkFail = Api.Ok (Api.getMockSignals 0).
Proof.
  assert (H1 : Api.failed (@Api.FNetworkFail (Api.list_payload Api.TradingSignal)))
    by (left; reflexivity).
  assert (H2 : Api.failed (@Api.FResponse (Api.list_payload Api.TradingSignal) false 503 None))
    by (right; right; exists 503%Z, None; reflexivity).
  split; [exact H1|]. split; [exact H2|].
  destruct (views_by_distance (fun _ => 1) 15 0 [] true 200) as [_ [_ H]].
  exact (proj1 (H _ _ H1 H2)).
Defined.

(** C8.  With ATR = 0.0025, multiplier 1.6, BUY and entry 1.0850 the risk
    levels are stop 1.0810 and take-profits 1.0890, 1.0930, 1.0970; the
    EUR_USD H4 mock signal of the [Index] page, whose ATR is 0.0025, carries
    exactly the levels the calculator derives from its entry, direction and
    ATR. *)
Theorem risk_levels_scenario (now : Z) :
  (exists r, Engine.riskLevels 1.0850 BUY 0.0025 1.6 = Some r /\
     Engine.rl_stop r == 1.0810 /\ Engine.rl_tp1 r == 1.0890 /\
     Engine.rl_tp2 r == 1.0930 /\ Engine.rl_tp3 r == 1.0970) /\
  exists s, hd_error (IndexPage.mockSignals now) = Some s /\
    IndexPage.pair s = "EUR_USD" /\ IndexPage.timeframe s = "H4" /\
    IndexPage.atr (IndexPage.sig_indicators s) == 0.0025 /\
    exists r, Engine.riskLevels (IndexPage.entry_price s) (IndexPage.sig_direction s)
                (IndexPage.atr (IndexPage.sig_indicators s)) 1.6 = Some r /\
      IndexPage.stop_loss s == Engine.rl_stop r /\
      IndexPage.take_profit_1 s == Engine.rl_tp1 r /\
      IndexPage.take_profit_2 s == Engine.rl_tp2 r /\
      IndexPage.take_profit_3 s == Engine.rl_tp3 r.
Proof.
  split.
  - eexists. split; [reflexivity|]. repeat split; vm_compute; reflexivity.
  - eexists. split; [reflexivity|]. split; [reflexivity|]. split; [reflexivity|].
    split; [reflexivity|].
    eexists. split; [reflexivity|]. repeat split; vm_compute; reflexivity.
Qed.

(** C9.  No query method of [ApiService] rejects: every error inside the
    [try] is caught and the [catch] returns a value.  When the request fails
    (fetch failure, timeout or non-OK response) [getSignals] returns the mock
    signals, [getLatestSignal] null, [getMarketData] the mock market data,
    [getProximitySignals] the mock signals filtered by [maxDistance], and
    [getSystemStatus] an unhealthy status without data stamped [now]. *)
Theorem api_never_throws (now : Z) (m : Q) :
  (forall o, exists v, Api.getSignals now o = Api.Ok v) /\
  (forall o, exists v, Api.getLatestSignal o = Api.Ok v) /\
  (forall o, exists v, Api.getMarketData now o = Api.Ok v) /\
  (forall o, exists v, Api.getSystemStatus now o = Api.Ok v) /\
  (forall o, exists v, Api.getProximitySignals m now o = Api.Ok v) /\
  (forall o1 o2 o3 o4 o5,
     Api.failed o1 -> Api.failed o2 -> Api.failed o3 -> Api.failed o4 -> Api.failed o5 ->
     Api.getSignals now o1 = Api.Ok (Api.getMockSignals now) /\
     Api.getLatestSignal o2 = Api.Ok None /\
     Api.getMarketData now o3 = Api.Ok (Api.getMockMarketData now) /\
     Api.getSystemStatus now o4 =
       Api.Ok {| Api.status := Api.unhealthy; Api.data_available := false;
                 Api.latest_data_age_minutes := None; Api.st_timestamp := now |} /\
     Api.getProximitySignals m now o5 =
       Api.Ok (filter (Api.within m) (Api.getMockSignals now))).
Proof.
  do 5 (split; [intro o; apply try_catch_ok; intro; eexists; reflexivity|]).
  intros o1 o2 o3 o4 o5 H1 H2 H3 H4 H5.
  repeat split;
  [ destruct H1 as [->|[->|[c [b ->]]]]
  | destruct H2 as [->|[->|[c [b ->]]]]
  | destruct H3 as [->|[->|[c [b ->]]]]
  | destruct H4 as [->|[->|[c [b ->]]]]
  | destruct H5 as [->|[->|[c [b ->]]]] ]; reflexivity.
Qed.

Lemma api_never_throws_witness :
  Api.failed (@Api.FTimeout Api.SystemStatus) /\
  Api.getSystemStatus 42 Api.FTimeout =
    Api.Ok {| Api.status := Api.unhealthy; Api.data_available := false;
              Api.latest_data_age_minutes := None; Api.st_timestamp := 42 |}.
Proof.
  assert (H : Api.failed (@Api.FTimeout Api.SystemStatus)) by (right; left; reflexivity).
  assert (Hn : Api.failed (@Api.FNetworkFail (Api.list_payload Api.TradingSignal)))
    by (left; reflexivity).
  assert (Hl : Api.failed (@Api.FNetworkFail Api.latest_payload)) by (left; reflexivity).
  assert (Hm : Api.failed (@Api.FNetworkFail (list Api.MarketData))) by (left; reflexivity).
  split; [exact H|].
  destruct (api_never_throws 42 15) as [_ [_ [_ [_ [_ F]]]]].
  exact (proj1 (proj2 (proj2 (proj2 (F _ _ _ _ _ Hn Hl Hm H Hn))))).
Defined.

(** C10.  A signal without distance_pips counts as distance 0: it passes the
    fallback proximity filter for every non-negative [maxDistance], and the
    very-close notification filter ([distance_pips <= 5]) selects it. *)
Theorem absent_distance_is_zero (m : Q) (s : Api.TradingSignal)
    (Hs : Api.distance_pips s = None) (Hm : 0 <= m) :
  Api.within m s = true /\ Hooks.very_close s = true /\
  (forall data, In s data -> In s (Hooks.notified (Some data))).
Proof.
  assert (Hv : Hooks.very_close s = true).
  { unfold Hooks.very_close, Api.or_zero. rewrite Hs. reflexivity. }
  split; [unfold Api.within, Api.or_zero; rewrite Hs; apply Qle_bool_iff; exact Hm|].
  split; [exact Hv|].
  intros data Hin. destruct data as [|t data]; [destruct Hin|].
  change (In s (filter Hooks.very_close (t :: data))). apply filter_In. split; [exact Hin | exact Hv].
Qed.

Lemma absent_distance_is_zero_witness :
  Api.distance_pips api_unscored = None /\ 0 <= 0 /\
  Api.within 0 api_unscored = true.
Proof.
  assert (H1 : Api.distance_pips api_unscored = None) by reflexivity.
  assert (H2 : 0 <= 0) by lra.
  split; [exact H1|]. split; [exact H2|].
  exact (proj1 (absent_distance_is_zero 0 api_unscored H1 H2)).
Defined.

(** ** Further properties of the code *)

Lemma floor_ge (z : Z) (y : Q) : (z <= Qfloor y)%Z <-> inject_Z z <= y.
Proof.
  split.
  - intro H. apply Qle_trans with (inject_Z (Qfloor y)); [|apply Qfloor_le].
    rewrite <- Zle_Qle. exact H.
  - intro H. rewrite <- (Qfloor_Z z). apply Qfloor_resp_le. exact H.
Qed.

Lemma pick_in {A} (d : A) (xs : list A) (r : Q) :
  xs <> [] -> 0 <= r < 1 -> In (pick d xs r) xs.
Proof.
  intros Hne [H0 H1]. unfold pick, js_floor. apply nth_In.
  assert (Hn : (0 < length xs)%nat) by (destruct xs; [congruence | simpl; lia]).
  set (N := inject_Z (Z.of_nat (length xs))).
  assert (HN : 0 < N) by (unfold N; change 0 with (inject_Z 0); rewrite <- Zlt_Qlt; lia).
  assert (Hx0 : 0 <= r * N) by (apply Qmult_le_0_compat; lra).
  assert (Hx1 : r * N < N).
  { setoid_replace N with (1 * N) at 2 by ring. apply Qmult_lt_r; lra. }
  assert (F0 : (0 <= Qfloor (r * N))%Z) by (apply floor_ge; exact Hx0).
  assert (F1 : (Qfloor (r * N) < Z.of_nat (length xs))%Z).
  { rewrite Zlt_Qlt. apply Qle_lt_trans with (r * N); [apply Qfloor_le | exact Hx1]. }
  lia.
Qed.

Lemma demo_rest (ps tfs : list string) (now : Z) (g : list Q) :
  snd (Dashboard.generateDemoSignal ps tfs now g) = skipn 10 g.
Proof.
  do 10 (destruct g as [|? g]; [reflexivity|]). reflexivity.
Qed.

Lemma demo_more (ps tfs : list string) (now : Z) (g : list Q) :
  let s := Dashboard.demo ps tfs now g in
  Dashboard.pair s =
    pick "" (match ps with [] => ["EUR_USD"; "GBP_USD"; "USD_JPY"] | _ => ps end) (draw 0 g) /\
  Dashboard.timeframe s =
    pick "" (match tfs with [] => ["H1"; "H4"; "D1"] | _ => tfs end) (draw 1 g) /\
  Dashboard.entry_price s =
    (if includes (Dashboard.pair s) "JPY" then 140 + draw 4 g * 20 else 1.0 + draw 4 g * 0.2) /\
  Dashboard.mtf_confirmation_percentage s = 60 + draw 8 g * 40 /\
  Dashboard.atr_percentile (Dashboard.sig_volatility_info s) = 30 + draw 9 g * 50.
Proof. peel_draws g. Qed.

Lemma valid_skipn (n : nat) (g : list Q) : valid_draws g -> valid_draws (skipn n g).
Proof.
  unfold valid_draws. revert g. induction n as [|n IH]; intros g H; [exact H|].
  destruct H as [|r g _ H]; [constructor | apply IH, H].
Qed.

Lemma replicateM_length {A} (n : nat) (m : Rand A) (g : list Q) :
  length (fst (DashboardUI.replicateM n m g)) = n.
Proof.
  revert g. induction n as [|n IH]; intro g; [reflexivity|].
  cbn [DashboardUI.replicateM]. unfold rbind, rret.
  destruct (m g) as [x g1]. specialize (IH g1).
  destruct (DashboardUI.replicateM n m g1) as [xs g2]. simpl in *. lia.
Qed.

(** Every signal of a batch is a [generateDemoSignal] run on valid draws. *)
Lemma replicate_demo_members (ps tfs : list string) (now : Z) (n : nat) (g : list Q) :
  valid_draws g ->
  forall s, In s (fst (DashboardUI.replicateM n (Dashboard.generateDemoSignal ps tfs now) g)) ->
  exists g', valid_draws g' /\ s = Dashboard.demo ps tfs now g'.
Proof.
  revert g. induction n as [|n IH]; intros g Hg s Hin; [destruct Hin|].
  cbn [DashboardUI.replicateM] in Hin. unfold rbind, rret in Hin. revert Hin.
  pose proof (demo_rest ps tfs now g) as R. unfold Dashboard.demo.
  destruct (Dashboard.generateDemoSignal ps tfs now g) as [x g1] eqn:E.
  cbn [snd] in R. subst g1.
  destruct (DashboardUI.replicateM n (Dashboard.generateDemoSignal ps tfs now) (skipn 10 g))
    as [xs g2] eqn:E2.
  simpl. intros [<-|Hin].
  - exists g. split; [exact Hg|]. rewrite E. reflexivity.
  - apply (IH (skipn 10 g) (valid_skipn 10 g Hg)). rewrite E2. exact Hin.
Qed.

Lemma newSignals_unfold (ps tfs : list string) (now : Z) (g : list Q) :
  fst (DashboardUI.newSignals ps tfs now g) =
  fst (DashboardUI.replicateM (Z.to_nat (8 + js_floor (draw 0 g * 5))%Z)
         (Dashboard.generateDemoSignal ps tfs now) (skipn 1 g)).
Proof. destruct g; reflexivity. Qed.

(** X1.  [generateDemoSignal] picks its pair among the selected pairs (the
    three defaults when none is selected) and its timeframe likewise. *)
Theorem demo_pair_timeframe_selected (ps tfs : list string) (now : Z) (g : list Q)
    (Hg : valid_draws g) :
  In (Dashboard.pair (Dashboard.demo ps tfs now g))
     (match ps with [] => ["EUR_USD"; "GBP_USD"; "USD_JPY"] | _ => ps end) /\
  In (Dashboard.timeframe (Dashboard.demo ps tfs now g))
     (match tfs with [] => ["H1"; "H4"; "D1"] | _ => tfs end).
Proof.
  pose proof (demo_more ps tfs now g) as L; cbv zeta in L.
  destruct L as [Hp [Ht _]]. rewrite Hp, Ht.
  split; apply pick_in; try (apply draw_range; exact Hg);
  [destruct ps | destruct tfs]; discriminate.
Qed.

Lemma demo_pair_timeframe_selected_witness :
  valid_draws [0.7; 0.1] /\
  In (Dashboard.pair (Dashboard.demo ["EUR_USD"; "GBP_JPY"] [] 0 [0.7; 0.1]))
     ["EUR_USD"; "GBP_JPY"].
Proof.
  assert (Hv : valid_draws [0.7; 0.1]) by (repeat constructor; unfold Qle, Qlt; simpl; lia).
  split; [exact Hv|].
  exact (proj1 (demo_pair_timeframe_selected ["EUR_USD"; "GBP_JPY"] [] 0 _ Hv)).
Defined.

(** X2.  A demo signal's entry lies in [140,160) for a JPY pair and in
    [1.0,1.2) otherwise; its stop is 10 to 30 pips (pip 0.01 for JPY pairs,
    0.0001 otherwise) from the entry; its MTF percentage lies in [60,100) and
    its ATR percentile in [30,80). *)
Theorem demo_ranges (ps tfs : list string) (now : Z) (g : list Q) (Hg : valid_draws g) :
  let s := Dashboard.demo ps tfs now g in
  let jpy := includes (Dashboard.pair s) "JPY" in
  let pv := if jpy then 0.01 else 0.0001 in
  (if jpy then 140 <= Dashboard.entry_price s < 160
   else 1.0 <= Dashboard.entry_price s < 1.2) /\
  10 * pv <= Qabs (Dashboard.entry_price s - Dashboard.stop_loss s) < 30 * pv /\
  60 <= Dashboard.mtf_confirmation_percentage s < 100 /\
  30 <= Dashboard.atr_percentile (Dashboard.sig_volatility_info s) < 80.
Proof.
  cbv zeta.
  pose proof (draw_range 4 g Hg). pose proof (draw_range 5 g Hg).
  pose proof (draw_range 8 g Hg). pose proof (draw_range 9 g Hg).
  pose proof (demo_more ps tfs now g) as L; cbv zeta in L.
  destruct L as [_ [_ [He [Hm Ha]]]].
  pose proof (demo_levels ps tfs now g) as L2; cbv zeta in L2. destruct L2 as [Hs _].
  rewrite Hm, Ha, Hs.
  destruct (Dashboard.sig_direction (Dashboard.demo ps tfs now g));
  rewrite He; destruct (includes (Dashboard.pair (Dashboard.demo ps tfs now g)) "JPY");
  repeat split; drop_abs.
Qed.

Lemma demo_ranges_witness :
  valid_draws [0; 0; 0; 0; 0.5; 0.5; 0; 0; 0.5; 0.5] /\
  60 <= Dashboard.mtf_confirmation_percentage
          (Dashboard.demo [] [] 0 [0; 0; 0; 0; 0.5; 0.5; 0; 0; 0.5; 0.5]) < 100.
Proof.
  assert (Hv : valid_draws [0; 0; 0; 0; 0.5; 0.5; 0; 0; 0.5; 0.5])
    by (repeat constructor; unfold Qle, Qlt; simpl; lia).
  split; [exact Hv|].
  exact (proj1 (proj2 (proj2 (demo_ranges [] [] 0 _ Hv)))).
Defined.

(** X3.  A dashboard refresh generates between 8 and 12 signals. *)
Theorem newSignals_count (ps tfs : list string) (now : Z) (g : list Q) (Hg : valid_draws g) :
  (8 <= length (fst (DashboardUI.newSignals ps tfs now g)) <= 12)%nat.
Proof.
  rewrite newSignals_unfold, replicateM_length. unfold js_floor.
  pose proof (draw_range 0 g Hg) as [H0 H1].
  assert (F0 : (0 <= Qfloor (draw 0 g * 5))%Z) by (apply floor_ge; change (inject_Z 0) with 0; lra).
  assert (F1 : (Qfloor (draw 0 g * 5) < 5)%Z).
  { rewrite Zlt_Qlt. apply Qle_lt_trans with (draw 0 g * 5); [apply Qfloor_le | change (inject_Z 5) with 5; lra]. }
  lia.
Qed.

Lemma newSignals_count_witness :
  valid_draws [0.99] /\ length (fst (DashboardUI.newSignals [] [] 0 [0.99])) = 12%nat /\
  (8 <= length (fst (DashboardUI.newSignals [] [] 0 [0.99%Q])) <= 12)%nat.
Proof.
  assert (Hv : valid_draws [0.99]) by (repeat constructor; unfold Qle, Qlt; simpl; lia).
  split; [exact Hv|]. split; [vm_compute; reflexivity|].
  exact (newSignals_count [] [] 0 _ Hv).
Defined.

(** X4.  With a minimum strength of at most 60 (the default is 60) the
    strength filter of [fetchSignals] never drops a demo signal: the stored
    list is the generated batch filtered only by the MTF requirement (the
    whole batch when MTF confirmation is not required). *)
Theorem fetch_strength_filter_inert (ps tfs : list string) (now : Z)
    (minSignalStrength : Q) (requireMTF : bool) (g : list Q)
    (Hg : valid_draws g) (Hmin : minSignalStrength <= 60) :
  fst (DashboardUI.fetchSignals ps tfs now minSignalStrength requireMTF g) =
  filter (fun s => negb requireMTF || Dashboard.mtf_confirmation s)
         (fst (DashboardUI.newSignals ps tfs now g)).
Proof.
  assert (U : fst (DashboardUI.fetchSignals ps tfs now minSignalStrength requireMTF g) =
              filter (DashboardUI.keepSignal minSignalStrength requireMTF)
                     (fst (DashboardUI.newSignals ps tfs now g))).
  { unfold DashboardUI.fetchSignals, rbind, rret.
    destruct (DashboardUI.newSignals ps tfs now g); reflexivity. }
  rewrite U. apply filter_ext_in. intros s Hin.
  rewrite newSignals_unfold in Hin.
  destruct (replicate_demo_members ps tfs now _ _ (valid_skipn 1 g Hg) s Hin)
    as [g' [Hg' ->]].
  pose proof (draw_range 3 g' Hg').
  unfold DashboardUI.keepSignal, Qlt_bool. rewrite demo_strength.
  assert (Hq : Qle_bool minSignalStrength (60 + draw 3 g' * 40) = true)
    by (apply Qle_bool_iff; lra).
  rewrite Hq. simpl.
  destruct requireMTF, (Dashboard.mtf_confirmation (Dashboard.demo ps tfs now g')); reflexivity.
Qed.

Lemma fetch_strength_filter_inert_witness :
  valid_draws [0.2; 0.5; 0.5] /\ 60 <= 60 /\
  fst (DashboardUI.fetchSignals [] [] 0 60 false [0.2; 0.5; 0.5]) =
  filter (fun s => negb false || Dashboard.mtf_confirmation s)
         (fst (DashboardUI.newSignals [] [] 0 [0.2; 0.5; 0.5])).
Proof.
  assert (Hv : valid_draws [0.2; 0.5; 0.5]) by (repeat constructor; unfold Qle, Qlt; simpl; lia).
  assert (Hm : 60 <= 60) by lra.
  split; [exact Hv|]. split; [exact Hm|].
  exact (fetch_strength_filter_inert [] [] 0 60 false _ Hv Hm).
Defined.

(** X5.  Checking a pair box puts the pair in the selection; unchecking it
    removes the pair and keeps every other selected pair; checking then
    unchecking a pair that was not selected gives back the selection. *)
Theorem toggle_selection_roundtrip (l : list string) (p : string) :
  In p (DashboardUI.toggleSelection true l p) /\
  ~ In p (DashboardUI.toggleSelection false l p) /\
  (forall q, q <> p -> (In q (DashboardUI.toggleSelection false l p) <-> In q l)) /\
  (~ In p l -> DashboardUI.toggleSelection false (DashboardUI.toggleSelection true l p) p = l).
Proof.
  unfold DashboardUI.toggleSelection. split; [apply in_or_app; right; left; reflexivity|].
  split.
  { rewrite filter_In. intros [_ H]. rewrite String.eqb_refl in H. discriminate. }
  split.
  { intros q Hq. rewrite filter_In. split; [intros [H _]; exact H|].
    intro H. split; [exact H|]. apply String.eqb_neq in Hq. rewrite Hq. reflexivity. }
  intro Hn. rewrite filter_app. simpl. rewrite String.eqb_refl. simpl. rewrite app_nil_r.
  induction l as [|a l IH]; [reflexivity|]. simpl.
  destruct (String.eqb a p) eqn:E.
  - apply String.eqb_eq in E. subst a. exfalso. apply Hn. left. reflexivity.
  - simpl. f_equal. apply IH. intro H. apply Hn. right. exact H.
Qed.

Lemma toggle_selection_roundtrip_witness :
  ~ In "EUR_JPY" ["EUR_USD"; "GBP_USD"] /\
  DashboardUI.toggleSelection false
    (DashboardUI.toggleSelection true ["EUR_USD"; "GBP_USD"] "EUR_JPY") "EUR_JPY" =
  ["EUR_USD"; "GBP_USD"].
Proof.
  assert (Hn : ~ In "EUR_JPY" ["EUR_USD"; "GBP_USD"])
    by (simpl; intros [H|[H|[]]]; discriminate).
  split; [exact Hn|].
  exact (proj2 (proj2 (proj2 (toggle_selection_roundtrip ["EUR_USD"; "GBP_USD"] "EUR_JPY"))) Hn).
Defined.

Lemma fold_strength_bounds (l : list IndexPage.TradingSignal) (acc : Q) :
  Forall (fun s => 0 <= IndexPage.strength s <= 1) l ->
  acc <= fold_left (fun acc s => acc + IndexPage.strength s) l acc <=
  acc + inject_Z (Z.of_nat (length l)).
Proof.
  revert acc. induction l as [|t l IH]; intros acc H.
  { cbn [fold_left length]. change (inject_Z (Z.of_nat 0)) with 0. lra. }
  cbn [fold_left length]. inversion H as [|? ? Ht Hl]; subst.
  specialize (IH (acc + IndexPage.strength t) Hl).
  rewrite Nat2Z.inj_succ, <- Z.add_1_r, inject_Z_plus. change (inject_Z 1) with 1.
  lra.
Qed.

Lemma js_round_percent (x : Q) : 0 <= x <= 100 -> 0 <= js_round x <= 100.
Proof.
  intros [H0 H1]. unfold js_round.
  assert (F0 : (0 <= Qfloor (x + (1#2)))%Z) by (apply floor_ge; change (inject_Z 0) with 0; lra).
  assert (F1 : (Qfloor (x + (1#2)) < 101)%Z).
  { rewrite Zlt_Qlt. apply Qle_lt_trans with (x + (1#2)); [apply Qfloor_le|].
    change (inject_Z 101) with 101. lra. }
  change 0 with (inject_Z 0). change 100 with (inject_Z 100).
  rewrite <- !Zle_Qle. lia.
Qed.

Lemma js_round_ge (k : Z) (x : Q) :
  Qle_bool (inject_Z k) (js_round x) = Qle_bool (inject_Z k - (1#2)) x.
Proof.
  apply Bool.eq_iff_eq_true. rewrite !Qle_bool_iff. unfold js_round.
  rewrite <- Zle_Qle, floor_ge. split; intro; lra.
Qed.

(** X7.  When every active signal's strength lies in [0,1], the average
    strength the [Index] page shows lies in [0,100]. *)
Theorem average_strength_percent (l : list IndexPage.TradingSignal)
    (Hl : Forall (fun s => 0 <= IndexPage.strength s <= 1) l) :
  0 <= IndexView.averageStrength l <= 100.
Proof.
  destruct l as [|t l']; [simpl; lra|].
  set (l := t :: l'). change (IndexView.averageStrength l) with
    (js_round (IndexView.sumStrength l / inject_Z (Z.of_nat (length l)) * 100)).
  apply js_round_percent.
  pose proof (fold_strength_bounds l 0 Hl) as [S0 S1]. fold (IndexView.sumStrength l) in S0, S1.
  assert (HN : 0 < inject_Z (Z.of_nat (length l))).
  { change 0 with (inject_Z 0). rewrite <- Zlt_Qlt. simpl. lia. }
  assert (A0 : 0 <= IndexView.sumStrength l / inject_Z (Z.of_nat (length l)))
    by (apply Qle_shift_div_l; [exact HN | lra]).
  assert (A1 : IndexView.sumStrength l / inject_Z (Z.of_nat (length l)) <= 1)
    by (apply Qle_shift_div_r; [exact HN | lra]).
  split; lra.
Qed.

Lemma average_strength_percent_witness :
  Forall (fun s => 0 <= IndexPage.strength s <= 1) (IndexPage.mockSignals 0) /\
  0 <= IndexView.averageStrength (IndexPage.mockSignals 0) <= 100.
Proof.
  assert (H : Forall (fun s => 0 <= IndexPage.strength s <= 1) (IndexPage.mockSignals 0))
    by (repeat constructor; simpl; lra).
  split; [exact H | exact (average_strength_percent _ H)].
Defined.

(** X9.  The strength badge's colour is decided on the rounded percentage,
    so its thresholds on [strength * 100] are 79.5 (green) and 59.5
    (yellow), gray below. *)
Theorem strength_badge_thresholds (strength : Q) :
  snd (Table.getStrengthBadge strength) =
  if Qle_bool (159 # 2) (strength * 100) then "bg-green-500"
  else if Qle_bool (119 # 2) (strength * 100) then "bg-yellow-500"
  else "bg-gray-500".
Proof.
  unfold Table.getStrengthBadge. simpl snd.
  change 80 with (inject_Z 80). change 60 with (inject_Z 60).
  rewrite !js_round_ge. reflexivity.
Qed.

(** X10.  When the status request fails (network error, timeout or non-OK
    response) the page's status indicator turns red; while the query has no
    data it is gray. *)
Theorem status_color_on_failure (now : Z) (o : Api.fetch_outcome Api.SystemStatus)
    (Ho : Api.failed o) :
  Table.getStatusColor (Table.query_data (Api.getSystemStatus now o)) = "bg-red-500" /\
  Table.getStatusColor None = "bg-gray-500".
Proof.
  split; [|reflexivity].
  destruct Ho as [->|[->|[code [body ->]]]]; reflexivity.
Qed.

Lemma status_color_on_failure_witness :
  Api.failed (@Api.FTimeout Api.SystemStatus) /\
  Table.getStatusColor (Table.query_data (Api.getSystemStatus 0 Api.FTimeout)) = "bg-red-500".
Proof.
  assert (H : Api.failed (@Api.FTimeout Api.SystemStatus)) by (right; left; reflexivity).
  split; [exact H | exact (proj1 (status_color_on_failure 0 _ H))].
Defined.

(** X12.  When the proximity request fails, the hook's notifications are
    both mock signals (each at 5 pips) if maxDistance is at least 5, and none
    otherwise. *)
Theorem notified_on_failure (m : Q) (now : Z)
    (o : Api.fetch_outcome (Api.list_payload Api.TradingSignal)) (Ho : Api.failed o) :
  (5 <= m ->
   Hooks.notified (Table.query_data (Api.getProximitySignals m now o)) = Api.getMockSignals now) /\
  (m < 5 -> Hooks.notified (Table.query_data (Api.getProximitySignals m now o)) = []).
Proof.
  assert (R : Api.getProximitySignals m now o = Api.Ok (filter (Api.within m) (Api.getMockSignals now)))
    by (destruct Ho as [->|[->|[code [body ->]]]]; reflexivity).
  rewrite R. unfold Table.query_data. split; intro Hm.
  - assert (W : Qle_bool 5 m = true) by (apply Qle_bool_iff; exact Hm).
    unfold Api.within; simpl; rewrite W; reflexivity.
  - assert (W : Qle_bool 5 m = false).
    { destruct (Qle_bool 5 m) eqn:E; [apply Qle_bool_iff in E; lra | reflexivity]. }
    unfold Api.within; simpl; rewrite W; reflexivity.
Qed.

Lemma notified_on_failure_witness :
  Api.failed (@Api.FNetworkFail (Api.list_payload Api.TradingSignal)) /\ 5 <= 15 /\
  Hooks.notified (Table.query_data (Api.getProximitySignals 15 0 Api.FNetworkFail)) =
  Api.getMockSignals 0.
Proof.
  assert (H : Api.failed (@Api.FNetworkFail (Api.list_payload Api.TradingSignal)))
    by (left; reflexivity).
  assert (H5 : 5 <= 15) by lra.
  split; [exact H|]. split; [exact H5|].
  exact (proj1 (notified_on_failure 15 0 _ H) H5).
Defined.

(** X14.  [getLatestSignal] returns a signal only from an OK response whose
    JSON is an object with a truthy [signal] field, and then it is that
    object. *)
Theorem getLatestSignal_some (o : Api.fetch_outcome Api.latest_payload)
    (d : Api.TradingSignal) :
  Api.getLatestSignal o = Api.Ok (Some d) <->
  exists code, o = Api.FResponse true code (Some (Api.LObject true d)).
Proof.
  split.
  - destruct o as [| |[|] code [[[|] d'| |]|]]; simpl; intro E; try discriminate E.
    injection E as <-. exists code. reflexivity.
  - intros [code ->]. reflexivity.
Qed.

(** X15.  When the request fails, the proximity fallback grows with
    maxDistance and never holds a signal that [getSignals]'s fallback lacks. *)
Theorem proximity_fallback_monotone (now : Z) (m1 m2 : Q)
    (o o' : Api.fetch_outcome (Api.list_payload Api.TradingSignal))
    (Ho : Api.failed o) (Ho' : Api.failed o') (Hm : m1 <= m2) :
  exists l1 l2 la,
    Api.getProximitySignals m1 now o = Api.Ok l1 /\
    Api.getProximitySignals m2 now o = Api.Ok l2 /\
    Api.getSignals now o' = Api.Ok la /\
    incl l1 l2 /\ incl l2 la.
Proof.
  assert (R : forall m, Api.getProximitySignals m now o =
                        Api.Ok (filter (Api.within m) (Api.getMockSignals now)))
    by (intro m; destruct Ho as [->|[->|[code [body ->]]]]; reflexivity).
  assert (Ra : Api.getSignals now o' = Api.Ok (Api.getMockSignals now))
    by (destruct Ho' as [->|[->|[code [body ->]]]]; reflexivity).
  do 3 eexists. split; [apply R|]. split; [apply R|]. split; [exact Ra|]. split.
  - intros s Hs. apply filter_In in Hs as [Hin Hw]. apply filter_In. split; [exact Hin|].
    unfold Api.within in *. apply Qle_bool_iff in Hw. apply Qle_bool_iff. lra.
  - intros s Hs. apply filter_In in Hs as [Hin _]. exact Hin.
Qed.

Lemma proximity_fallback_monotone_witness :
  Api.failed (@Api.FTimeout (Api.list_payload Api.TradingSignal)) /\ 3 <= 15 /\
  exists l1 l2 la,
    Api.getProximitySignals 3 0 Api.FTimeout = Api.Ok l1 /\
    Api.getProximitySignals 15 0 Api.FTimeout = Api.Ok l2 /\
    Api.getSignals 0 Api.FTimeout = Api.Ok la /\
    incl l1 l2 /\ incl l2 la.
Proof.
  assert (H : Api.failed (@Api.FTimeout (Api.list_payload Api.TradingSignal)))
    by (right; left; reflexivity).
  assert (H3 : 3 <= 15) by lra.
  split; [exact H|]. split; [exact H3|].
  exact (proximity_fallback_monotone 0 3 15 _ _ H H H3).
Defined.
